(** * Mock BotNet node server: the handshake result recorder

    A shallow embedding of [src/test-node-server.py], the Flask application
    that records the handshake results a registry posts back to a node, and
    the properties of its five endpoints.

    Python values that cross the JSON boundary are the type [json]; a Python
    [dict] with string keys is a [gmap string json].  The module-level list
    [handshake_results] is the only state of the process: handlers are
    computations over it that return a value or raise. *)

From Stdlib Require Import QArith.
From stdpp Require Import gmap strings list fin_maps.

Local Set Warnings "-register-all".
Local Open Scope string_scope.
Local Open Scope Z_scope.

(** ** Values *)

(** What [request.get_json()] can hand back and [jsonify] can send: [None],
    [bool], [int], [float] (a finite float, by its rational value), [str],
    [list], [dict]. *)
Inductive json : Type :=
  | JNull
  | JBool (b : bool)
  | JInt (z : Z)
  | JFloat (q : Q)
  | JStr (s : string)
  | JArr (l : list json)
  | JObj (m : gmap string json).

Abbreviation dict := (gmap string json).

(** A dict display [{k1: v1, ..., kn: vn}]: the keys are set left to right. *)
Definition dict_display (items : list (string * json)) : dict :=
  foldl (λ d kv, <[kv.1 := kv.2]> d) ∅ items.

(** [type(v).__name__], as it appears in the interpreter's messages. *)
Definition type_name (v : json) : string :=
  match v with
  | JNull => "NoneType"
  | JBool _ => "bool"
  | JInt _ => "int"
  | JFloat _ => "float"
  | JStr _ => "str"
  | JArr _ => "list"
  | JObj _ => "dict"
  end.

(** ** Exceptions *)

(** The exceptions the submission view can meet: the [HTTPException] Flask
    raises from [request.get_json()] for a body it does not accept, and the
    interpreter's own for an operation on a value of the wrong type.  The
    message texts are those of CPython 3.11 to 3.13; the properties depend
    only on [str_exn] of what was raised. *)

Inductive exn : Type :=
  | HTTPException (description : string)
  | TypeError (message : string)
  | KeyError (key : string)
  | AttributeError (message : string).

(** [str(e)].  A [KeyError] prints the repr of its key. *)
Definition str_exn (e : exn) : string :=
  match e with
  | HTTPException d => d
  | TypeError m => m
  | KeyError k => "'" ++ k ++ "'"
  | AttributeError m => m
  end.

Inductive outcome (A : Type) : Type :=
  | Return (a : A)
  | Raise (e : exn).
Arguments Return {A} a.
Arguments Raise {A} e.

(** ** Python operations on the parsed body *)

(** [needle in hay] for two [str]: [needle] occurs in [hay] as a substring. *)
Fixpoint str_contains (needle hay : string) : bool :=
  String.prefix needle hay ||
  match hay with
  | EmptyString => false
  | String _ hay' => str_contains needle hay'
  end.

(** [key == v] for a [str] key: only an equal [str] compares equal. *)
Definition str_eq_json (key : string) (v : json) : bool :=
  match v with
  | JStr s => String.eqb key s
  | _ => false
  end.

(** [key in data]: key membership on a dict, element membership on a list,
    substring test on a str; the other types are not containers. *)
Definition py_in (key : string) (data : json) : outcome bool :=
  match data with
  | JObj m => Return (bool_decide (is_Some (m !! key)))
  | JArr l => Return (existsb (str_eq_json key) l)
  | JStr s => Return (str_contains key s)
  | _ => Raise (TypeError ("argument of type '" ++ type_name data ++ "' is not iterable"))
  end.

(** [data[key]] for a [str] key. *)
Definition py_getitem (data : json) (key : string) : outcome json :=
  match data with
  | JObj m =>
      match m !! key with
      | Some v => Return v
      | None => Raise (KeyError key)
      end
  | JArr _ => Raise (TypeError "list indices must be integers or slices, not str")
  | JStr _ => Raise (TypeError "string indices must be integers, not 'str'")
  | _ => Raise (TypeError ("'" ++ type_name data ++ "' object is not subscriptable"))
  end.

(** [data.get(key, dflt)]: only a dict has the method. *)
Definition py_get (data : json) (key : string) (dflt : json) : outcome json :=
  match data with
  | JObj m => Return (default dflt (m !! key))
  | _ => Raise (AttributeError ("'" ++ type_name data ++ "' object has no attribute 'get'"))
  end.

(** [l[start:]] with Python's clamping of a negative or too large start. *)
Definition py_slice_from {A : Type} (start : Z) (l : list A) : list A :=
  let n := Z.of_nat (length l) in
  let lo := if start <? 0 then Z.max (n + start) 0 else Z.min start n in
  drop (Z.to_nat lo) l.

(** ** Handlers as computations over [handshake_results] *)

(** A handler reads and updates the result log and ends by returning or by
    raising; what it appended before raising stays appended. *)
Definition handler (A : Type) : Type := list dict → outcome A * list dict.

Definition ret {A : Type} (a : A) : handler A := λ log, (Return a, log).

Definition bind {A B : Type} (c : handler A) (k : A → handler B) : handler B :=
  λ log,
    match c log with
    | (Return a, log') => k a log'
    | (Raise e, log') => (Raise e, log')
    end.

Definition lift {A : Type} (o : outcome A) : handler A := λ log, (o, log).

(** Reading the global [handshake_results]. *)
Definition read_results : handler (list dict) := λ log, (Return log, log).

(** [handshake_results.append(result)]. *)
Definition append_result (result : dict) : handler unit :=
  λ log, (Return tt, (log ++ [result])%list).

(** [try: body except Exception as e: on_error(e)]. *)
Definition try_except {A : Type} (body : handler A) (on_error : exn → handler A)
  : handler A :=
  λ log,
    match body log with
    | (Return a, log') => (Return a, log')
    | (Raise e, log') => on_error e log'
    end.

Declare Scope handler_scope.
Delimit Scope handler_scope with handler.
Notation "x <- c ;; k" := (bind c (λ x, k))
  (at level 20, c at level 99, k at level 200, right associativity,
   format "'[v' x  <-  c  ;; '/' k ']'") : handler_scope.


(** ** The application *)

(** What one call reads from outside the process: the outcome of
    [request.get_json()] (the parsed body, or the exception Flask raises for
    a body it cannot accept), the string [datetime.now().isoformat()], and the
    float [time.time()], the system's wall clock in seconds since the epoch.
    A handler uses at most one of the two clock readings. *)
Record call : Type := {
  request_get_json : outcome json;
  datetime_now_isoformat : string;
  time_time : Q
}.

(** The dynamic parts of the root page: the interpolated
    [len(handshake_results)] and the list given to [json.dumps]. *)
Record root_page : Type := {
  results_received : Z;
  recent_results : list dict
}.

(** A view's return value: [jsonify(body)] (status 200),
    [jsonify(body), status], or the text of the root page. *)
Inductive response : Type :=
  | JsonResponse (status : Z) (body : json)
  | HtmlResponse (page : root_page).

Definition jsonify (body : dict) : json := JObj body.

Definition len {A : Type} (l : list A) : Z := Z.of_nat (length l).

Definition required_fields : list string :=
  ["session_id"; "score"; "accepted"; "riddle_id"].

(** The validation loop
    [for field in required_fields: if field not in data: return ...]:
    [Some field] when the loop is left by the [return] at [field], [None]
    when it runs to its end. *)
Fixpoint find_missing (fields : list string) (data : json) : outcome (option string) :=
  match fields with
  | [] => Return None
  | field :: fields' =>
      match py_in field data with
      | Raise e => Raise e
      | Return false => Return (Some field)
      | Return true => find_missing fields' data
      end
  end.

(** The body of the [try] block of [receive_handshake_result].  The [print]
    calls write to the console, which is not part of the state; they are
    taken to succeed and left out. *)
Definition receive_handshake_result_body (c : call) : handler response :=
  (data <- lift (request_get_json c) ;;
   missing <- lift (find_missing required_fields data) ;;
   match missing with
   | Some field =>
       ret (JsonResponse 400 (jsonify (dict_display [
         ("success", JBool false);
         ("error", JStr ("Missing required field: " ++ field))])))
   | None =>
       session_id <- lift (py_getitem data "session_id") ;;
       score <- lift (py_getitem data "score") ;;
       accepted <- lift (py_getitem data "accepted") ;;
       riddle_id <- lift (py_getitem data "riddle_id") ;;
       evaluator_id <- lift (py_get data "evaluator_id" (JStr "unknown")) ;;
       feedback <- lift (py_get data "feedback" (JStr "No feedback provided")) ;;
       let result := dict_display [
         ("timestamp", JStr (datetime_now_isoformat c));
         ("session_id", session_id);
         ("score", score);
         ("accepted", accepted);
         ("riddle_id", riddle_id);
         ("evaluator_id", evaluator_id);
         ("feedback", feedback)] in
       _ <- append_result result ;;
       timestamp <- lift (py_getitem (JObj result) "timestamp") ;;
       ret (JsonResponse 200 (jsonify (dict_display [
         ("success", JBool true);
         ("message", JStr "Handshake result received successfully");
         ("node_id", JStr "test-mock-node");
         ("timestamp", timestamp)])))
   end)%handler.

(** [POST /api/v1/handshake/result]: the [try] statement, whose [except]
    clause answers with [str(e)] and status 500. *)
Definition receive_handshake_result (c : call) : handler response :=
  try_except (receive_handshake_result_body c)
    (λ e, ret (JsonResponse 500 (jsonify (dict_display [
       ("success", JBool false);
       ("error", JStr (str_exn e))])))).

(** [GET /api/v1/info]. *)
Definition node_info (c : call) : handler response :=
  (handshake_results <- read_results ;;
   ret (JsonResponse 200 (jsonify (dict_display [
     ("success", JBool true);
     ("data", JObj (dict_display [
        ("node_id", JStr "test-mock-node");
        ("version", JStr "1.0.0");
        ("capabilities", JArr [JStr "handshake_testing"; JStr "callback_verification"]);
        ("status", JStr "active");
        ("handshake_results_received", JInt (len handshake_results));
        ("uptime", JFloat (time_time c))]))]))))%handler.

(** [GET /api/v1/handshake/history]. *)
Definition handshake_history (c : call) : handler response :=
  (handshake_results <- read_results ;;
   ret (JsonResponse 200 (jsonify (dict_display [
     ("success", JBool true);
     ("data", JObj (dict_display [
        ("total_results", JInt (len handshake_results));
        ("results", JArr (JObj <$> py_slice_from (-10) handshake_results))]))]))))%handler.

(** [GET /health]. *)
Definition health_check (c : call) : handler response :=
  ret (JsonResponse 200 (jsonify (dict_display [
    ("status", JStr "healthy");
    ("timestamp", JFloat (time_time c));
    ("node_type", JStr "mock_test_node")]))).

(** [GET /]. *)
Definition root (c : call) : handler response :=
  (handshake_results <- read_results ;;
   ret (HtmlResponse {|
     results_received := len handshake_results;
     recent_results := py_slice_from (-3) handshake_results |}))%handler.

(** The routes registered with [app.route]. *)
Inductive route : Type :=
  | POST_handshake_result
  | GET_info
  | GET_handshake_history
  | GET_health
  | GET_root.

Definition view (r : route) : call → handler response :=
  match r with
  | POST_handshake_result => receive_handshake_result
  | GET_info => node_info
  | GET_handshake_history => handshake_history
  | GET_health => health_check
  | GET_root => root
  end.

(** The process: [handshake_results] starts empty and the requests are
    served one after the other. *)
Fixpoint serve (requests : list (route * call)) (log : list dict)
  : list (outcome response) * list dict :=
  match requests with
  | [] => ([], log)
  | (r, c) :: requests' =>
      let '(o, log') := view r c log in
      let '(os, log'') := serve requests' log' in
      (o :: os, log'')
  end.

Definition is_read (r : route) : bool :=
  match r with
  | POST_handshake_result => false
  | _ => true
  end.

(** * Vocabulary of the properties *)

(** ** Predicates and expected answers *)

Definition has_key (m : dict) (key : string) : Prop := is_Some (m !! key).

(** [field] is the first required field, in the order of the loop, that the
    dict [m] lacks. *)
Definition first_missing (m : dict) (field : string) : Prop :=
  ∃ pre post,
    required_fields = (pre ++ field :: post)%list ∧
    Forall (has_key m) pre ∧
    m !! field = None.


(** The three answers of the submission endpoint. *)
Definition missing_field_response (field : string) : response :=
  JsonResponse 400 (JObj (dict_display [
    ("success", JBool false);
    ("error", JStr ("Missing required field: " ++ field))])).

Definition server_error_response (e : exn) : response :=
  JsonResponse 500 (JObj (dict_display [
    ("success", JBool false);
    ("error", JStr (str_exn e))])).

Definition received_response (now : string) : response :=
  JsonResponse 200 (JObj (dict_display [
    ("success", JBool true);
    ("message", JStr "Handshake result received successfully");
    ("node_id", JStr "test-mock-node");
    ("timestamp", JStr now)])).

(** The entry stored for the body [m] when [datetime.now()] reads [now]. *)
Definition stored_result (now : string) (m : dict) : dict :=
  dict_display [
    ("timestamp", JStr now);
    ("session_id", default JNull (m !! "session_id"));
    ("score", default JNull (m !! "score"));
    ("accepted", default JNull (m !! "accepted"));
    ("riddle_id", default JNull (m !! "riddle_id"));
    ("evaluator_id", default (JStr "unknown") (m !! "evaluator_id"));
    ("feedback", default (JStr "No feedback provided") (m !! "feedback"))].

(** A stored entry is sound when it has the four required keys and the keys
    [evaluator_id] and [feedback], and its required values are those of a
    body that went through the validation loop without a missing field. *)
Definition sound_entry (e : dict) : Prop :=
  Forall (has_key e) (required_fields ++ ["evaluator_id"; "feedback"]) ∧
  ∃ m : dict,
    find_missing required_fields (JObj m) = Return None ∧
    Forall (λ g, e !! g = m !! g) required_fields.

(** The [uptime] number of an info answer. *)
Definition uptime_of (o : outcome response) : option Q :=
  match o with
  | Return (JsonResponse _ (JObj body)) =>
      match body !! "data" with
      | Some (JObj data) =>
          match data !! "uptime" with
          | Some (JFloat t) => Some t
          | _ => None
          end
      | _ => None
      end
  | _ => None
  end.

(** [total_results] and the [session_id] of each of the [results] of a
    history answer. *)
Definition history_of (o : outcome response) : option (json * list (option json)) :=
  match o with
  | Return (JsonResponse _ (JObj body)) =>
      match body !! "data" with
      | Some (JObj data) =>
          match data !! "total_results", data !! "results" with
          | Some total, Some (JArr results) =>
              Some (total,
                    (λ r, match r with JObj e => e !! "session_id" | _ => None end)
                      <$> results)
          | _, _ => None
          end
      | _ => None
      end
  | _ => None
  end.

(** ** Sample requests *)

(** The scenario bodies of the specification. *)
Definition body_minimal : dict :=
  dict_display [
    ("session_id", JStr "s1");
    ("score", JFloat (8 # 10));
    ("accepted", JBool true);
    ("riddle_id", JStr "r1")].

Definition body_without_riddle_id : dict :=
  dict_display [
    ("session_id", JStr "s1");
    ("score", JFloat (8 # 10));
    ("accepted", JBool true)].

Definition body_null_riddle : dict :=
  dict_display [
    ("session_id", JStr "s1");
    ("score", JFloat (8 # 10));
    ("accepted", JBool true);
    ("riddle_id", JNull)].

(** A call whose [request.get_json()] ends as [o]. *)
Definition call_with (o : outcome json) : call := {|
  request_get_json := o;
  datetime_now_isoformat := "2026-02-03T04:05:06.000007";
  time_time := 1770091506 |}.

Definition call_minimal : call := call_with (Return (JObj body_minimal)).

Definition call_without_riddle_id : call :=
  call_with (Return (JObj body_without_riddle_id)).

Definition call_null_riddle : call := call_with (Return (JObj body_null_riddle)).


Definition call_null_body : call := call_with (Return JNull).


(** The [i]-th of a series of valid submissions. *)
Definition numbered_call (i : Z) : call :=
  call_with (Return (JObj (dict_display [
    ("session_id", JInt i);
    ("score", JFloat (8 # 10));
    ("accepted", JBool true);
    ("riddle_id", JStr "r1")]))).

(** A GET request served while [time.time()] reads [t]. *)
Definition get_at (t : Q) : call := {|
  request_get_json := Return JNull;
  datetime_now_isoformat := "2026-02-03T04:05:06.000007";
  time_time := t |}.

(** ** What a request leaves in the log *)

(** The body has every required key. *)
Definition all_required (m : dict) : bool :=
  forallb (λ g, bool_decide (is_Some (m !! g))) required_fields.

(** The entry a request adds to [handshake_results], if it adds one: only a
    POST whose parsed body is a dict with every required key does. *)
Definition entry_of (rc : route * call) : option dict :=
  match rc with
  | (POST_handshake_result, c) =>
      match request_get_json c with
      | Return (JObj m) =>
          if all_required m
          then Some (stored_result (datetime_now_isoformat c) m)
          else None
      | _ => None
      end
  | _ => None
  end.

(** The [results] list of a history answer. *)
Definition results_of (o : outcome response) : option (list json) :=
  match o with
  | Return (JsonResponse _ (JObj body)) =>
      match body !! "data" with
      | Some (JObj data) =>
          match data !! "results" with
          | Some (JArr results) => Some results
          | _ => None
          end
      | _ => None
      end
  | _ => None
  end.

(** The number under [key] in the [data] object of an info or history
    answer. *)
Definition count_of (key : string) (o : outcome response) : option Z :=
  match o with
  | Return (JsonResponse _ (JObj body)) =>
      match body !! "data" with
      | Some (JObj data) =>
          match data !! key with
          | Some (JInt n) => Some n
          | _ => None
          end
      | _ => None
      end
  | _ => None
  end.

(** The keys of a stored entry. *)
Definition stored_keys : gset string :=
  {[ "timestamp"; "session_id"; "score"; "accepted"; "riddle_id";
     "evaluator_id"; "feedback" ]}.


(** A valid body that also sends a null [evaluator_id], a [timestamp] of
    its own and a key the server does not know. *)
Definition body_with_extras : dict :=
  dict_display [
    ("session_id", JStr "s1");
    ("score", JInt 1);
    ("accepted", JBool false);
    ("riddle_id", JStr "r1");
    ("evaluator_id", JNull);
    ("timestamp", JStr "1999-01-01T00:00:00");
    ("debug", JBool true)].

(** * Properties *)

(** ** The validation loop on a dict *)

Lemma py_in_dict_present (m : dict) (key : string) :
  has_key m key → py_in key (JObj m) = Return true.
Proof.
  intros Hk. unfold py_in. by rewrite bool_decide_eq_true_2.
Qed.

Lemma py_in_dict_absent (m : dict) (key : string) :
  m !! key = None → py_in key (JObj m) = Return false.
Proof.
  intros Hk. unfold py_in. rewrite bool_decide_eq_false_2; [done|].
  rewrite Hk. by intros [v Hv].
Qed.

Lemma find_missing_all_present (m : dict) (fields : list string) :
  Forall (has_key m) fields → find_missing fields (JObj m) = Return None.
Proof.
  induction 1 as [|field fields Hk _ IH]; [done|].
  cbn [find_missing]. by rewrite py_in_dict_present.
Qed.

Lemma find_missing_stops_at (m : dict) (pre post : list string) (field : string) :
  Forall (has_key m) pre →
  m !! field = None →
  find_missing (pre ++ field :: post) (JObj m) = Return (Some field).
Proof.
  intros Hpre Hf. induction Hpre as [|g pre Hg _ IH].
  - cbn [app find_missing]. by rewrite py_in_dict_absent.
  - change ((g :: pre) ++ field :: post)%list with (g :: (pre ++ field :: post))%list.
    cbn [find_missing]. by rewrite py_in_dict_present.
Qed.

(** A list of keys either is covered by the dict or splits at the first key
    the dict lacks. *)
Lemma first_absent_split (m : dict) (fields : list string) :
  Forall (has_key m) fields ∨
  ∃ pre field post,
    fields = (pre ++ field :: post)%list ∧ Forall (has_key m) pre ∧ m !! field = None.
Proof.
  induction fields as [|g fields IH]; [by left|].
  destruct (m !! g) as [v|] eqn:Hg.
  - destruct IH as [Hall|(pre & field & post & -> & Hpre & Hf)].
    + left. constructor; [by exists v|done].
    + right. exists (g :: pre), field, post. split_and!; [done| |done].
      constructor; [by exists v|done].
  - right. by exists [], g, fields.
Qed.

(** ** The submission endpoint *)

Lemma body_missing_field (c : call) (m : dict) (field : string) (log : list dict) :
  request_get_json c = Return (JObj m) →
  first_missing m field →
  receive_handshake_result_body c log = (Return (missing_field_response field), log).
Proof.
  intros Hc (pre & post & Hsplit & Hpre & Hf).
  unfold receive_handshake_result_body, bind, lift.
  rewrite Hc, Hsplit, (find_missing_stops_at m pre post field Hpre Hf).
  reflexivity.
Qed.

Lemma body_all_present (c : call) (m : dict) (log : list dict) :
  request_get_json c = Return (JObj m) →
  Forall (has_key m) required_fields →
  receive_handshake_result_body c log =
    (Return (received_response (datetime_now_isoformat c)),
     (log ++ [stored_result (datetime_now_isoformat c) m])%list).
Proof.
  intros Hc Hall.
  unfold receive_handshake_result_body, bind, lift.
  rewrite Hc, (find_missing_all_present m required_fields Hall).
  unfold required_fields in Hall.
  repeat match goal with
         | H : Forall _ (_ :: _) |- _ => apply Forall_cons in H as [[? ?] H]
         end.
  unfold py_getitem at 1 2 3 4. unfold py_get, append_result, ret, stored_result.
  repeat match goal with
         | H : _ !! _ = Some _ |- _ => rewrite H; clear H
         end.
  reflexivity.
Qed.

Lemma try_except_returns {A : Type} (body : handler A) (on_error : exn → handler A)
    (log log' : list dict) (a : A) :
  body log = (Return a, log') → try_except body on_error log = (Return a, log').
Proof. intros H. unfold try_except. by rewrite H. Qed.

Lemma try_except_raises {A : Type} (body : handler A) (on_error : exn → handler A)
    (log log' : list dict) (e : exn) :
  body log = (Raise e, log') → try_except body on_error log = on_error e log'.
Proof. intros H. unfold try_except. by rewrite H. Qed.


(** C1.  A POST whose JSON object body lacks at least one of [session_id],
    [score], [accepted], [riddle_id] is answered with HTTP 400, [success]
    false and the error text ["Missing required field: <name>"], where
    [<name>] is the first lacking field in the order of [required_fields];
    nothing is appended to [handshake_results]. *)
Theorem missing_field_gives_400 (c : call) (m : dict) (log : list dict) :
  request_get_json c = Return (JObj m) →
  (∃ g, g ∈ required_fields ∧ m !! g = None) →
  ∃ field,
    first_missing m field ∧
    receive_handshake_result c log =
      (Return (JsonResponse 400 (JObj (dict_display [
         ("success", JBool false);
         ("error", JStr ("Missing required field: " ++ field))]))),
       log).
Proof.
  intros Hc (g & Hg & Hnone).
  destruct (first_absent_split m required_fields)
    as [Hall|(pre & field & post & Hsplit & Hpre & Hf)].
  - rewrite Forall_forall in Hall. destruct (Hall g Hg) as [v Hv]. congruence.
  - exists field. split; [by exists pre, post|].
    apply try_except_returns, (body_missing_field c m field log); [done|by exists pre, post].
Qed.

Lemma missing_field_gives_400_witness :
  ∃ field,
    first_missing body_without_riddle_id field ∧
    receive_handshake_result call_without_riddle_id [] =
      (Return (JsonResponse 400 (JObj (dict_display [
         ("success", JBool false);
         ("error", JStr ("Missing required field: " ++ field))]))),
       []).
Proof.
  apply (missing_field_gives_400 call_without_riddle_id body_without_riddle_id []).
  - reflexivity.
  - exists "riddle_id". split; [|reflexivity].
    unfold required_fields. set_solver.
Defined.









(** ** Bodies that are not JSON objects *)



Lemma getitem_not_dict_raises (data : json) (key : string) :
  (∀ m : dict, data ≠ JObj m) → ∃ e, py_getitem data key = Raise e.
Proof.
  intros Hno. destruct data; cbn [py_getitem]; try by eexists.
  by destruct (Hno m).
Qed.

(** On a body that is not a dict the [try] block ends before the append:
    by the [return] of the validation loop, or by an exception of the loop
    or of the first subscription [data['session_id']]. *)
Lemma body_not_dict (c : call) (data : json) (log : list dict)
    (o : outcome response) (log' : list dict) :
  request_get_json c = Return data →
  (∀ m : dict, data ≠ JObj m) →
  receive_handshake_result_body c log = (o, log') →
  log' = log ∧
  ((∃ field, o = Return (missing_field_response field)) ∨ ∃ e, o = Raise e).
Proof.
  intros Hc Hno. unfold receive_handshake_result_body, bind, lift. rewrite Hc.
  destruct (find_missing required_fields data) as [[field|]|e].
  - unfold ret. intros [= <- <-]. split; [done|]. left. by exists field.
  - destruct (getitem_not_dict_raises data "session_id" Hno) as [e ->].
    intros [= <- <-]. split; [done|]. right. by exists e.
  - intros [= <- <-]. split; [done|]. right. by exists e.
Qed.



(** ** The read endpoints *)

Lemma py_slice_from_negative {A : Type} (n : nat) (l : list A) :
  (0 < n)%nat → py_slice_from (- Z.of_nat n) l = drop (length l - n) l.
Proof.
  intros Hn. unfold py_slice_from.
  destruct (Z.ltb_spec (- Z.of_nat n) 0) as [_|]; [|lia].
  f_equal. lia.
Qed.

Lemma last_ten (log : list dict) :
  py_slice_from (-10) log = drop (length log - 10) log.
Proof. by apply (py_slice_from_negative 10 log); lia. Qed.

(** C3.  Whatever [handshake_results] holds, the history endpoint reports
    [total_results] equal to its length and, as [results], its last
    [min 10 total_results] entries in the order of the log, which is the
    order of arrival. *)
Theorem history_reports_last_ten (c : call) (log : list dict) :
  ∃ body data older results,
    handshake_history c log = (Return (JsonResponse 200 (JObj body)), log) ∧
    body !! "success" = Some (JBool true) ∧
    body !! "data" = Some (JObj data) ∧
    data !! "total_results" = Some (JInt (Z.of_nat (length log))) ∧
    data !! "results" = Some (JArr (JObj <$> results)) ∧
    log = (older ++ results)%list ∧
    length results = (10 `min` length log)%nat.
Proof.
  eexists _, _, (take (length log - 10) log), (drop (length log - 10) log).
  split; [reflexivity|].
  split; [reflexivity|].
  split; [reflexivity|].
  split; [reflexivity|].
  split; [by rewrite last_ten|].
  split; [by rewrite take_drop|].
  rewrite length_drop. lia.
Qed.

Lemma read_view_keeps_log (r : route) (c : call) (log : list dict) :
  is_read r = true → (view r c log).2 = log.
Proof. by destruct r. Qed.

(** C5.  Serving any sequence of GET requests to [/health], [/api/v1/info],
    [/api/v1/handshake/history] and [/] leaves [handshake_results] as it
    was, however long the sequence. *)
Theorem reads_keep_log (requests : list (route * call)) (log : list dict) :
  Forall (λ rc, is_read rc.1 = true) requests →
  (serve requests log).2 = log.
Proof.
  induction 1 as [|[r c] requests Hr _ IH]; [done|].
  cbn [serve]. pose proof (read_view_keeps_log r c log Hr) as Hview.
  destruct (view r c log) as [o log1]. cbn [snd] in Hview. subst log1.
  destruct (serve requests log) as [os log2]. exact IH.
Qed.

Lemma reads_keep_log_witness :
  (serve [(GET_health, call_minimal); (GET_info, call_minimal);
          (GET_handshake_history, call_minimal); (GET_root, call_minimal);
          (GET_info, call_minimal)] [body_minimal]).2 = [body_minimal].
Proof.
  apply (reads_keep_log
           [(GET_health, call_minimal); (GET_info, call_minimal);
            (GET_handshake_history, call_minimal); (GET_root, call_minimal);
            (GET_info, call_minimal)] [body_minimal]).
  repeat constructor.
Defined.

(** ** Every way a submission can end *)

(** The [try] block ends in one of three ways: the validation loop returns
    the missing-field answer, the entry of a validated dict is appended and
    the confirmation returned, or an exception is raised; only the second
    changes [handshake_results]. *)
Lemma body_outcome_cases (c : call) (log : list dict) :
  ∃ o log',
    receive_handshake_result_body c log = (o, log') ∧
    ((∃ field, o = Return (missing_field_response field) ∧ log' = log) ∨
     (∃ m, request_get_json c = Return (JObj m) ∧
           Forall (has_key m) required_fields ∧
           o = Return (received_response (datetime_now_isoformat c)) ∧
           log' = (log ++ [stored_result (datetime_now_isoformat c) m])%list) ∨
     (∃ e, o = Raise e ∧ log' = log)).
Proof.
  destruct (receive_handshake_result_body c log) as [o log'] eqn:Hrun.
  exists o, log'. split; [done|].
  destruct (request_get_json c) as [data|e] eqn:Hc.
  - assert (Hcases : (∃ m, data = JObj m) ∨ ∀ m : dict, data ≠ JObj m).
    { destruct data; try (by right); left; by eexists. }
    destruct Hcases as [[m ->]|Hno].
    + destruct (first_absent_split m required_fields)
        as [Hall|(pre & field & post & Hsplit & Hpre & Hf)].
      * rewrite (body_all_present c m log Hc Hall) in Hrun.
        injection Hrun as <- <-. right; left. by exists m.
      * rewrite (body_missing_field c m field log Hc) in Hrun;
          [|by exists pre, post].
        injection Hrun as <- <-. left. by exists field.
    + destruct (body_not_dict c data log o log' Hc Hno Hrun) as [-> [[field ->]|[e ->]]].
      * left. by exists field.
      * right; right. by exists e.
  - unfold receive_handshake_result_body, bind, lift in Hrun. rewrite Hc in Hrun.
    injection Hrun as <- <-. right; right. by exists e.
Qed.

(** The same three ways, seen from outside the [try] statement. *)
Lemma receive_cases (c : call) (log : list dict) :
  (∃ field, receive_handshake_result c log =
              (Return (missing_field_response field), log)) ∨
  (∃ m, request_get_json c = Return (JObj m) ∧
        Forall (has_key m) required_fields ∧
        receive_handshake_result c log =
          (Return (received_response (datetime_now_isoformat c)),
           (log ++ [stored_result (datetime_now_isoformat c) m])%list)) ∨
  (∃ e, receive_handshake_result c log = (Return (server_error_response e), log)).
Proof.
  destruct (body_outcome_cases c log)
    as (o & log' & Hrun & [(field & -> & ->)|[(m & Hc & Hall & -> & ->)|(e & -> & ->)]]).
  - left. exists field. by apply try_except_returns.
  - right; left. exists m. split_and!; [done..|]. by apply try_except_returns.
  - right; right. exists e. unfold receive_handshake_result.
    by rewrite (try_except_raises _ _ log log e Hrun).
Qed.

(** ** The invariant of the log *)

Lemma stored_result_sound (now : string) (m : dict) :
  Forall (has_key m) required_fields → sound_entry (stored_result now m).
Proof.
  intros Hall. split.
  - unfold required_fields, stored_result.
    repeat constructor; eexists; reflexivity.
  - exists m. split; [by apply find_missing_all_present|].
    unfold required_fields in *.
    repeat match goal with
           | H : Forall _ (_ :: _) |- _ => apply Forall_cons in H as [[? ?] H]
           end.
    unfold stored_result.
    repeat constructor;
      match goal with
      | H : m !! ?k = Some _ |- _ = m !! ?k => rewrite !H; reflexivity
      end.
Qed.

Lemma view_keeps_sound (r : route) (c : call) (log : list dict) :
  Forall sound_entry log → Forall sound_entry (view r c log).2.
Proof.
  intros Hlog. destruct r; try done.
  cbn [view].
  destruct (receive_cases c log) as [(field & ->)|[(m & _ & Hall & ->)|(e & ->)]];
    cbn [snd]; [done| |done].
  apply Forall_app. split; [done|].
  constructor; [by apply stored_result_sound|done].
Qed.

(** C4.  Every operation of the server preserves the invariant that each
    entry of [handshake_results] is sound: no sequence of requests stores a
    partial entry or one that did not pass the validation. *)
Theorem log_entries_stay_sound (requests : list (route * call)) (log : list dict) :
  Forall sound_entry log →
  Forall sound_entry (serve requests log).2.
Proof.
  revert log. induction requests as [|[r c] requests IH]; intros log Hlog; [done|].
  cbn [serve]. pose proof (view_keeps_sound r c log Hlog) as Hview.
  destruct (view r c log) as [o log1]. cbn [snd] in Hview.
  specialize (IH log1 Hview).
  by destruct (serve requests log1) as [os log2].
Qed.

Lemma log_entries_stay_sound_witness :
  Forall sound_entry
    (serve [(POST_handshake_result, call_minimal);
            (POST_handshake_result, call_without_riddle_id);
            (GET_handshake_history, call_minimal);
            (POST_handshake_result, call_null_body);
            (POST_handshake_result, call_null_riddle)] []).2.
Proof.
  apply (log_entries_stay_sound
           [(POST_handshake_result, call_minimal);
            (POST_handshake_result, call_without_riddle_id);
            (GET_handshake_history, call_minimal);
            (POST_handshake_result, call_null_body);
            (POST_handshake_result, call_null_riddle)] []).
  constructor.
Defined.

(** ** The info endpoint and its clock *)

(** C6, as stated, fails when the system clock is set back between two
    calls: [time.time()] follows the system clock, and the second [uptime]
    is below the first. *)
Lemma uptime_decreases_with_system_clock :
  uptime_of <$> (serve [(GET_info, get_at 1770091506); (GET_info, get_at 1770091500)] []).1
    = [Some 1770091506%Q; Some 1770091500%Q] ∧
  ¬ (1770091506 <= 1770091500)%Q.
Proof.
  split; [reflexivity|].
  intros Hle. by apply Qle_bool_iff in Hle.
Qed.

(** C6, amended.  Every call of the info endpoint answers HTTP 200 with
    [success] true and a [data] object holding the fixed [node_id],
    [version], [capabilities] and [status], the current length of
    [handshake_results], and as [uptime] the reading of [time.time()] taken
    during the call, the system's wall clock in seconds since the epoch: two
    calls are ordered as their readings of the system clock are.  The log is
    not changed. *)
Theorem node_info_descriptor (c : call) (log : list dict) :
  ∃ body data,
    node_info c log = (Return (JsonResponse 200 (JObj body)), log) ∧
    body !! "success" = Some (JBool true) ∧
    body !! "data" = Some (JObj data) ∧
    data !! "node_id" = Some (JStr "test-mock-node") ∧
    data !! "version" = Some (JStr "1.0.0") ∧
    data !! "capabilities" =
      Some (JArr [JStr "handshake_testing"; JStr "callback_verification"]) ∧
    data !! "status" = Some (JStr "active") ∧
    data !! "handshake_results_received" = Some (JInt (Z.of_nat (length log))) ∧
    data !! "uptime" = Some (JFloat (time_time c)) ∧
    uptime_of (node_info c log).1 = Some (time_time c).
Proof.
  eexists _, _. split; [reflexivity|].
  do 8 (split; [reflexivity|]).
  reflexivity.
Qed.

(** ** The shape of the answers *)



(** ** The scenarios of the specification *)

Example scenario_minimal_submission :
  ∃ body e,
    receive_handshake_result call_minimal [] =
      (Return (JsonResponse 200 (JObj body)), [e]) ∧
    e !! "evaluator_id" = Some (JStr "unknown") ∧
    e !! "feedback" = Some (JStr "No feedback provided").
Proof. by eexists _, _. Qed.

Example scenario_missing_riddle_id :
  receive_handshake_result call_without_riddle_id [] =
    (Return (missing_field_response "riddle_id"), []).
Proof. reflexivity. Qed.

Example scenario_fifteen_submissions :
  let submissions := (λ i, (POST_handshake_result, numbered_call i)) <$> seqZ 1 15 in
  let '(answers, log) :=
    serve (submissions ++ [(GET_handshake_history, call_minimal)])%list [] in
  length log = 15%nat ∧
  history_of <$> last answers = Some (Some (JInt 15, (Some ∘ JInt) <$> seqZ 6 10)).
Proof. vm_compute. done. Qed.

(** A string that contains the four names passes the membership tests; the
    subscription that follows raises. *)
Example scenario_string_body :
  receive_handshake_result
    (call_with (Return (JStr "session_id score accepted riddle_id"))) [] =
    (Return (server_error_response
       (TypeError "string indices must be integers, not 'str'")), []).
Proof. reflexivity. Qed.

(** * Further properties of the views *)

(** ** The log as a function of the requests *)

Lemma all_required_spec (m : dict) :
  all_required m = true ↔ Forall (has_key m) required_fields.
Proof.
  unfold all_required. rewrite forallb_forall, Forall_forall. unfold has_key.
  split; intros H g Hg.
  - eapply bool_decide_eq_true_1, H. by apply list_elem_of_In.
  - apply bool_decide_eq_true_2, H. by apply list_elem_of_In.
Qed.

Lemma all_required_false (m : dict) (field : string) :
  first_missing m field → all_required m = false.
Proof.
  intros (pre & post & Hsplit & _ & Hf).
  destruct (all_required m) eqn:Hall; [|done].
  apply all_required_spec in Hall. rewrite Hsplit in Hall.
  apply Forall_app in Hall as [_ Hall]. apply Forall_cons in Hall as [[v Hv] _].
  congruence.
Qed.

(** One submission: the log gains the entry of the request or stays. *)
Lemma receive_log (c : call) (log : list dict) :
  (receive_handshake_result c log).2 =
    (log ++ option_list (entry_of (POST_handshake_result, c)))%list.
Proof.
  destruct (body_outcome_cases c log)
    as (o & log' & Hrun & Hcases).
  assert (Hsnd : (receive_handshake_result c log).2 = log').
  { unfold receive_handshake_result, try_except. rewrite Hrun.
    by destruct o. }
  rewrite Hsnd. clear Hsnd. cbn [entry_of].
  destruct (request_get_json c) as [data|e0] eqn:Hc.
  - assert (Hdata : (∃ m, data = JObj m) ∨ ∀ m : dict, data ≠ JObj m).
    { destruct data; try (by right); left; by eexists. }
    destruct Hdata as [[m ->]|Hno].
    + destruct (first_absent_split m required_fields)
        as [Hall|(pre & field & post & Hsplit & Hpre & Hf)].
      * rewrite (body_all_present c m log Hc Hall) in Hrun.
        injection Hrun as <- <-.
        apply all_required_spec in Hall. by rewrite Hall.
      * assert (Hfirst : first_missing m field) by (by exists pre, post).
        rewrite (body_missing_field c m field log Hc Hfirst) in Hrun.
        injection Hrun as <- <-.
        rewrite (all_required_false m field Hfirst). cbn. by rewrite app_nil_r.
    + destruct (body_not_dict c data log o log' Hc Hno Hrun) as [-> _].
      destruct data; cbn; rewrite ?app_nil_r; try done.
      by destruct (Hno m).
  - unfold receive_handshake_result_body, bind, lift in Hrun. rewrite Hc in Hrun.
    injection Hrun as <- <-. cbn. by rewrite app_nil_r.
Qed.

Lemma view_log (r : route) (c : call) (log : list dict) :
  (view r c log).2 = (log ++ option_list (entry_of (r, c)))%list.
Proof.
  destruct r; cbn [view]; try (cbn; by rewrite app_nil_r).
  apply receive_log.
Qed.

Lemma serve_log (requests : list (route * call)) (log : list dict) :
  (serve requests log).2 = (log ++ omap entry_of requests)%list.
Proof.
  revert log. induction requests as [|[r c] requests IH]; intros log.
  - cbn. by rewrite app_nil_r.
  - cbn [serve]. pose proof (view_log r c log) as Hview.
    destruct (view r c log) as [o log1]. cbn [snd] in Hview.
    specialize (IH log1). destruct (serve requests log1) as [os log2].
    cbn [snd] in *. rewrite IH, Hview, <- app_assoc. f_equal.
    cbn [omap list_omap]. by destruct (entry_of (r, c)).
Qed.

(** X1.  After any sequence of requests, [handshake_results] is the log
    before them followed by one entry for each POST whose parsed body is a
    dict with every required key, in the order of arrival; every other
    request leaves no trace. *)
Theorem log_is_accepted_entries (requests : list (route * call)) (log : list dict) :
  (serve requests log).2 = (log ++ omap entry_of requests)%list.
Proof. apply serve_log. Qed.

(** X2.  The log is append-only: an entry that sits at position [i] after
    some requests sits there, unchanged, after any further requests. *)
Theorem stored_entries_stay (before after : list (route * call))
    (log : list dict) (i : nat) (e : dict) :
  (serve before log).2 !! i = Some e →
  (serve (before ++ after) log).2 !! i = Some e.
Proof.
  rewrite !serve_log, omap_app, app_assoc. intros Hi.
  by apply lookup_app_l_Some.
Qed.

Lemma stored_entries_stay_witness :
  (serve ([(POST_handshake_result, call_minimal)] ++
          [(POST_handshake_result, call_null_body);
           (POST_handshake_result, numbered_call 2);
           (GET_root, call_minimal)]) []).2 !! 0%nat
    = Some (stored_result "2026-02-03T04:05:06.000007" body_minimal).
Proof.
  apply (stored_entries_stay
           [(POST_handshake_result, call_minimal)]
           [(POST_handshake_result, call_null_body);
            (POST_handshake_result, numbered_call 2);
            (GET_root, call_minimal)] [] 0).
  reflexivity.
Defined.

(** ** Which submissions are accepted *)



Lemma stored_result_dom (now : string) (m : dict) :
  dom (stored_result now m) = stored_keys.
Proof.
  unfold stored_result, dict_display, stored_keys. cbn [foldl fst snd].
  rewrite !dom_insert_L, dom_empty_L. set_solver.
Qed.

(** X4.  The entry stored for an accepted body has exactly the seven keys
    [timestamp], [session_id], [score], [accepted], [riddle_id],
    [evaluator_id], [feedback]: any other key of the body is dropped, and a
    [timestamp] sent by the caller is replaced by the server's.  An
    [evaluator_id] or [feedback] the caller sends is stored as sent, a null
    included. *)
Theorem stored_entry_keys (c : call) (m : dict) (log : list dict) :
  request_get_json c = Return (JObj m) →
  Forall (has_key m) required_fields →
  ∃ result,
    (receive_handshake_result c log).2 = (log ++ [result])%list ∧
    dom result = stored_keys ∧
    (∀ key, key ∉ stored_keys → result !! key = None) ∧
    result !! "timestamp" = Some (JStr (datetime_now_isoformat c)) ∧
    (∀ v, m !! "evaluator_id" = Some v → result !! "evaluator_id" = Some v) ∧
    (∀ v, m !! "feedback" = Some v → result !! "feedback" = Some v).
Proof.
  intros Hc Hall. exists (stored_result (datetime_now_isoformat c) m).
  split.
  { pose proof (body_all_present c m log Hc Hall) as Hbody.
    unfold receive_handshake_result, try_except. by rewrite Hbody. }
  split; [apply stored_result_dom|].
  split.
  { intros key Hkey. apply not_elem_of_dom. by rewrite stored_result_dom. }
  split; [reflexivity|].
  split; intros v Hv; unfold stored_result; by rewrite Hv.
Qed.

Lemma stored_entry_keys_witness :
  ∃ result,
    (receive_handshake_result (call_with (Return (JObj body_with_extras))) []).2
      = ([] ++ [result])%list ∧
    dom result = stored_keys ∧
    (∀ key, key ∉ stored_keys → result !! key = None) ∧
    result !! "timestamp" = Some (JStr "2026-02-03T04:05:06.000007") ∧
    (∀ v, body_with_extras !! "evaluator_id" = Some v →
          result !! "evaluator_id" = Some v) ∧
    (∀ v, body_with_extras !! "feedback" = Some v → result !! "feedback" = Some v).
Proof.
  apply (stored_entry_keys (call_with (Return (JObj body_with_extras)))
           body_with_extras []).
  - reflexivity.
  - repeat constructor; eexists; reflexivity.
Defined.



(** ** Reading back what was stored *)

Lemma py_slice_from_snoc {A : Type} (n : nat) (l : list A) (x : A) :
  (0 < n)%nat →
  py_slice_from (- Z.of_nat n) (l ++ [x]) = (drop (length l + 1 - n) l ++ [x])%list.
Proof.
  intros Hn. rewrite (py_slice_from_negative n _ Hn), length_app. cbn [length].
  apply drop_app_le. lia.
Qed.

Lemma receive_valid_log (c : call) (m : dict) (log : list dict) :
  request_get_json c = Return (JObj m) →
  Forall (has_key m) required_fields →
  (receive_handshake_result c log).2 =
    (log ++ [stored_result (datetime_now_isoformat c) m])%list.
Proof.
  intros Hc Hall. pose proof (body_all_present c m log Hc Hall) as Hbody.
  unfold receive_handshake_result, try_except. by rewrite Hbody.
Qed.

Lemma history_results (c : call) (log : list dict) :
  results_of (handshake_history c log).1 = Some (JObj <$> drop (length log - 10) log).
Proof.
  change (results_of (handshake_history c log).1)
    with (Some (JObj <$> py_slice_from (-10) log)).
  by rewrite last_ten.
Qed.

(** X5.  An accepted submission can be read back at once: the history then
    reports one result more and has the new entry as the last of its
    [results], and the info endpoint counts one result more. *)
Theorem submission_read_back (c c1 c2 : call) (m : dict) (log : list dict) :
  request_get_json c = Return (JObj m) →
  Forall (has_key m) required_fields →
  let log' := (receive_handshake_result c log).2 in
  count_of "total_results" (handshake_history c1 log').1
    = Some (Z.of_nat (length log) + 1) ∧
  count_of "handshake_results_received" (node_info c2 log').1
    = Some (Z.of_nat (length log) + 1) ∧
  ∃ results,
    results_of (handshake_history c1 log').1 = Some results ∧
    last results = Some (JObj (stored_result (datetime_now_isoformat c) m)).
Proof.
  intros Hc Hall log'. unfold log'. rewrite (receive_valid_log c m log Hc Hall).
  split; [|split].
  - change (count_of "total_results" (handshake_history c1 ?l).1)
      with (Some (len l)).
    unfold len. rewrite length_app. cbn [length]. f_equal. lia.
  - change (count_of "handshake_results_received" (node_info c2 ?l).1)
      with (Some (len l)).
    unfold len. rewrite length_app. cbn [length]. f_equal. lia.
  - eexists. split; [apply history_results|].
    rewrite length_app. cbn [length].
    rewrite drop_app_le by lia. rewrite fmap_app. cbn [fmap list_fmap].
    apply last_snoc.
Qed.

Lemma submission_read_back_witness :
  let log' := (receive_handshake_result call_null_riddle [body_minimal]).2 in
  count_of "total_results" (handshake_history call_minimal log').1
    = Some (Z.of_nat (length [body_minimal]) + 1) ∧
  count_of "handshake_results_received" (node_info (get_at 5) log').1
    = Some (Z.of_nat (length [body_minimal]) + 1) ∧
  ∃ results,
    results_of (handshake_history call_minimal log').1 = Some results ∧
    last results =
      Some (JObj (stored_result "2026-02-03T04:05:06.000007" body_null_riddle)).
Proof.
  apply (submission_read_back call_null_riddle call_minimal (get_at 5)
           body_null_riddle [body_minimal]).
  - reflexivity.
  - repeat constructor; eexists; reflexivity.
Defined.

(** X6.  The history is a sliding window of ten: while the log holds
    fewer than ten entries an accepted submission extends the [results];
    from ten entries on it also drops the oldest of them. *)
Theorem history_window_slides (c c1 c2 : call) (m : dict) (log : list dict) :
  request_get_json c = Return (JObj m) →
  Forall (has_key m) required_fields →
  ∃ old,
    results_of (handshake_history c1 log).1 = Some old ∧
    results_of (handshake_history c2 (receive_handshake_result c log).2).1 =
      Some ((if decide (length log < 10)%nat then old else drop 1 old) ++
            [JObj (stored_result (datetime_now_isoformat c) m)])%list.
Proof.
  intros Hc Hall. eexists. split; [apply history_results|].
  rewrite (receive_valid_log c m log Hc Hall), history_results.
  rewrite length_app. cbn [length].
  rewrite drop_app_le by lia. rewrite fmap_app. cbn [fmap list_fmap].
  do 2 f_equal. case_decide as Hlen.
  - by replace (length log + 1 - 10)%nat with (length log - 10)%nat by lia.
  - rewrite <- fmap_drop, drop_drop. do 2 f_equal. lia.
Qed.

Lemma history_window_slides_witness :
  ∃ old,
    results_of (handshake_history call_minimal [body_minimal]).1 = Some old ∧
    results_of (handshake_history call_minimal
                  (receive_handshake_result call_null_riddle [body_minimal]).2).1 =
      Some ((if decide (length [body_minimal] < 10)%nat then old else drop 1 old) ++
            [JObj (stored_result "2026-02-03T04:05:06.000007" body_null_riddle)])%list.
Proof.
  apply (history_window_slides call_null_riddle call_minimal call_minimal
           body_null_riddle [body_minimal]).
  - reflexivity.
  - repeat constructor; eexists; reflexivity.
Defined.

Lemma last_three (log : list dict) :
  py_slice_from (-3) log = drop (length log - 3) log.
Proof. by apply (py_slice_from_negative 3 log); lia. Qed.

(** X7.  The root page shows [len(handshake_results)] and the last
    [min 3 len] entries of the log in their order; they are the last three of
    the [results] the history endpoint returns for the same log. *)
Theorem root_page_recent (c : call) (log : list dict) :
  ∃ page older results,
    root c log = (Return (HtmlResponse page), log) ∧
    results_received page = Z.of_nat (length log) ∧
    log = (older ++ recent_results page)%list ∧
    length (recent_results page) = (3 `min` length log)%nat ∧
    results_of (handshake_history c log).1 = Some results ∧
    JObj <$> recent_results page = drop (length results - 3) results.
Proof.
  eexists _, (take (length log - 3) log), _.
  split; [reflexivity|]. cbn [results_received recent_results].
  split; [reflexivity|].
  rewrite last_three.
  split; [by rewrite take_drop|].
  split; [rewrite length_drop; lia|].
  split; [apply history_results|].
  rewrite length_fmap, length_drop, <- fmap_drop, drop_drop.
  do 2 f_equal. lia.
Qed.

(** X11.  Started with an empty log, the server reports through the info
    endpoint and the history endpoint the number of POSTs so far whose
    parsed body was a dict with every required key. *)
Theorem counts_are_accepted_submissions (requests : list (route * call)) (c1 c2 : call) :
  let log := (serve requests []).2 in
  count_of "handshake_results_received" (node_info c1 log).1
    = Some (Z.of_nat (length (omap entry_of requests))) ∧
  count_of "total_results" (handshake_history c2 log).1
    = Some (Z.of_nat (length (omap entry_of requests))).
Proof.
  intros log. unfold log. rewrite serve_log. cbn [app].
  split; reflexivity.
Qed.

(** ** Bodies that are arrays or strings *)















(** ** Repeated submissions and the statuses of the answers *)

Lemma omap_replicate_Some {A B : Type} (f : A → option B) (x : A) (y : B) (n : nat) :
  f x = Some y → omap f (replicate n x) = replicate n y.
Proof.
  intros Hf. induction n as [|n IH]; [done|].
  cbn [replicate omap list_omap]. rewrite Hf. f_equal. exact IH.
Qed.

(** X12.  Nothing is deduplicated: the same accepted submission sent [n]
    times, the clock string being the same, is stored [n] times. *)
Theorem repeated_submission_stored_each_time (c : call) (m : dict) (n : nat)
    (log : list dict) :
  request_get_json c = Return (JObj m) →
  Forall (has_key m) required_fields →
  (serve (replicate n (POST_handshake_result, c)) log).2 =
    (log ++ replicate n (stored_result (datetime_now_isoformat c) m))%list.
Proof.
  intros Hc Hall. rewrite serve_log. f_equal.
  apply omap_replicate_Some. cbn [entry_of]. rewrite Hc.
  apply all_required_spec in Hall. by rewrite Hall.
Qed.

Lemma repeated_submission_stored_each_time_witness :
  (serve (replicate 3 (POST_handshake_result, call_minimal)) [body_null_riddle]).2 =
    ([body_null_riddle] ++
     replicate 3 (stored_result "2026-02-03T04:05:06.000007" body_minimal))%list.
Proof.
  apply (repeated_submission_stored_each_time call_minimal body_minimal 3
           [body_null_riddle]).
  - reflexivity.
  - repeat constructor; eexists; reflexivity.
Defined.



